(** * FitLoop: the epoch-level training loop of pytorch_lightning

    A shallow embedding of [pytorch_lightning/loops/fit_loop.py].  The loop
    object, the trainer it is attached to and the process environment form
    one mutable world; every method of [FitLoop] becomes a computation in a
    state-and-exception monad over that world, which also records the calls
    made to collaborators (hooks, logger connector, progress tracker) together
    with the world each of them could observe when it was called. *)

From Stdlib Require Import ZArith List String Bool Lia.
From Stdlib Require Import SpecFloat.
Import ListNotations.
Local Open Scope string_scope.
Local Open Scope Z_scope.

(** ** Data model *)

(** Python objects that the loop only passes around (step outputs, values
    returned by user hooks). *)
Inductive PyObject : Type :=
| Handle (id : Z).

(** [trainer.num_training_batches] is an [int], or [float("inf")] for a
    dataloader without length. *)
Inductive BatchCount : Type :=
| Batches (n : Z)
| Inf.

(** The four counters of [Progress.current]. *)
Record Tracker : Type := mkTracker {
  ready : Z;
  started : Z;
  processed : Z;
  completed : Z
}.

Record Progress : Type := mkProgress {
  current : Tracker
}.

(** The fields of the [TrainingEpochLoop] collaborator that [FitLoop] reads
    or writes. *)
Module EpochLoop.
Record t : Type := mk {
  global_step : Z;
  min_steps : option Z;
  max_steps : Z;
  _batches_that_stepped : Z
}.
End EpochLoop.

Inductive DataFetcherCls : Type :=
| DataFetcher
| DataLoaderIterDataFetcher
| InterBatchParallelDataFetcher.

(** An instantiated fetcher: [data_fetcher_cls(prefetch_batches=...)]. *)
Record Fetcher : Type := mkFetcher {
  fetcher_cls : DataFetcherCls;
  fetcher_prefetch_batches : Z
}.

Record FitLoop : Type := mkFitLoop {
  max_epochs : Z;
  min_epochs : Z;
  epoch_loop : EpochLoop.t;
  epoch_progress : Progress;
  _is_fresh_start_epoch : bool;
  _outputs : list PyObject;
  _data_fetcher : option Fetcher;
  _restarting : bool
}.

Inductive Accelerator : Type :=
| GPUAccelerator
| OtherAccelerator (name : string).

Record LightningModule : Type := mkModule {
  (* names of the parameters that [training_step] declares explicitly *)
  training_step : list string;
  (* [is_overridden("training_epoch_end", model)] *)
  overrides_training_epoch_end : bool
}.

Record Trainer : Type := mkTrainer {
  should_stop : bool;
  num_training_batches : BatchCount;
  training : bool;
  validating : bool;
  lightning_module : LightningModule;
  accelerator : Accelerator;
  num_optimizers : nat
}.

(** The world a method runs in: the loop itself, the trainer it is attached
    to, and [os.environ]. *)
Record World : Type := mkWorld {
  self : FitLoop;
  trainer : Trainer;
  environ : string -> option string
}.

(** ** Exceptions, events and the monad *)

Inductive Misconfiguration : Type :=
| BadMaxEpochs (passed : Z)
| BadMaxSteps (passed : Z)
| TrainingEpochEndReturned
| InterBatchParallelismNeedsGPU.

Inductive Exception : Type :=
| MisconfigurationException (why : Misconfiguration)
| RuntimeError
| ExitGracefullyException.

Inductive Callee : Type :=
| Callbacks          (* trainer._call_callback_hooks *)
| Module_            (* trainer._call_lightning_module_hook *)
| Strategy           (* trainer._call_strategy_hook *)
| LoggerConnector    (* trainer._logger_connector *)
| TrainerSelf        (* other methods of the trainer *)
| EpochProgress      (* self.epoch_progress *)
| EpochLoopCallee    (* self.epoch_loop *)
| Results.           (* self._results *)

Inductive Message : Type :=
| MinimumNotMet (min_epochs : Z) (min_steps : option Z)   (* log.info *)
| MaxStepsNoneDeprecated                                  (* rank_zero_deprecation *)
| DataloaderIterExperimental                              (* rank_zero_warn *)
| TrainRunEnded.                                          (* log.detail *)

Inductive Event : Type :=
| Call (callee : Callee) (name : string) (seen : World)
| Log (msg : Message).

Inductive Outcome (A : Type) : Type :=
| Return (a : A)
| Raise (e : Exception).
Arguments Return {A} a.
Arguments Raise {A} e.

Record Result (A : Type) : Type := mkResult {
  outcome : Outcome A;
  final : World;
  emitted : list Event
}.
Arguments mkResult {A} _ _ _.
Arguments outcome {A} _.
Arguments final {A} _.
Arguments emitted {A} _.

Definition M (A : Type) : Type := World -> Result A.

Definition ret {A : Type} (a : A) : M A :=
  fun w => mkResult (Return a) w [].

Definition raise {A : Type} (e : Exception) : M A :=
  fun w => mkResult (Raise e) w [].

Definition bind {A B : Type} (m : M A) (k : A -> M B) : M B :=
  fun w =>
    match m w with
    | mkResult (Return a) w1 tr1 =>
        match k a w1 with
        | mkResult o w2 tr2 => mkResult o w2 (tr1 ++ tr2)
        end
    | mkResult (Raise e) w1 tr1 => mkResult (Raise e) w1 tr1
    end.

Notation "x <- m ;; k" := (bind m (fun x => k))
  (at level 61, m at next level, right associativity).
Notation "m ;; k" := (bind m (fun _ => k))
  (at level 61, right associativity).

Definition get : M World := fun w => mkResult (Return w) w [].

Definition modify (f : World -> World) : M unit :=
  fun w => mkResult (Return tt) (f w) [].

Definition emit (e : Event) : M unit :=
  fun w => mkResult (Return tt) w [e].

Definition log (msg : Message) : M unit := emit (Log msg).

Definition when (b : bool) (m : M unit) : M unit :=
  if b then m else ret tt.

(** ** Field updates *)

Definition with_self (f : FitLoop -> FitLoop) (w : World) : World :=
  mkWorld (f (self w)) (trainer w) (environ w).

Definition with_trainer (f : Trainer -> Trainer) (w : World) : World :=
  mkWorld (self w) (f (trainer w)) (environ w).

Definition with_epoch_loop (f : EpochLoop.t -> EpochLoop.t) (l : FitLoop) : FitLoop :=
  mkFitLoop (max_epochs l) (min_epochs l) (f (epoch_loop l)) (epoch_progress l)
            (_is_fresh_start_epoch l) (_outputs l) (_data_fetcher l) (_restarting l).

Definition with_current (f : Tracker -> Tracker) (l : FitLoop) : FitLoop :=
  mkFitLoop (max_epochs l) (min_epochs l) (epoch_loop l)
            (mkProgress (f (current (epoch_progress l))))
            (_is_fresh_start_epoch l) (_outputs l) (_data_fetcher l) (_restarting l).

Definition set_is_fresh_start_epoch (b : bool) (l : FitLoop) : FitLoop :=
  mkFitLoop (max_epochs l) (min_epochs l) (epoch_loop l) (epoch_progress l)
            b (_outputs l) (_data_fetcher l) (_restarting l).

Definition set_outputs (o : list PyObject) (l : FitLoop) : FitLoop :=
  mkFitLoop (max_epochs l) (min_epochs l) (epoch_loop l) (epoch_progress l)
            (_is_fresh_start_epoch l) o (_data_fetcher l) (_restarting l).

Definition set_data_fetcher (d : option Fetcher) (l : FitLoop) : FitLoop :=
  mkFitLoop (max_epochs l) (min_epochs l) (epoch_loop l) (epoch_progress l)
            (_is_fresh_start_epoch l) (_outputs l) d (_restarting l).

Definition set_restarting_field (b : bool) (l : FitLoop) : FitLoop :=
  mkFitLoop (max_epochs l) (min_epochs l) (epoch_loop l) (epoch_progress l)
            (_is_fresh_start_epoch l) (_outputs l) (_data_fetcher l) b.

Definition set_el_max_steps (v : Z) (e : EpochLoop.t) : EpochLoop.t :=
  EpochLoop.mk (EpochLoop.global_step e) (EpochLoop.min_steps e) v
               (EpochLoop._batches_that_stepped e).

Definition set_el_min_steps (v : option Z) (e : EpochLoop.t) : EpochLoop.t :=
  EpochLoop.mk (EpochLoop.global_step e) v (EpochLoop.max_steps e)
               (EpochLoop._batches_that_stepped e).

Definition add_batches_that_stepped (d : Z) (e : EpochLoop.t) : EpochLoop.t :=
  EpochLoop.mk (EpochLoop.global_step e) (EpochLoop.min_steps e) (EpochLoop.max_steps e)
               (EpochLoop._batches_that_stepped e + d).

Definition set_completed (v : Z) (t : Tracker) : Tracker :=
  mkTracker (ready t) (started t) (processed t) v.

Definition set_should_stop (b : bool) (t : Trainer) : Trainer :=
  mkTrainer b (num_training_batches t) (training t) (validating t)
            (lightning_module t) (accelerator t) (num_optimizers t).

(** ** Collaborators that live outside fit_loop.py *)

(** Modelled from the spec: [_is_max_limit_reached] of
    [pytorch_lightning.loops.utilities] is not part of this file; a limit is
    reached when it is not -1 (unbounded) and the counter is at least the
    limit. *)
Definition _is_max_limit_reached (current_ maximum : Z) : bool :=
  negb (maximum =? -1) && (current_ >=? maximum).

(** Modelled from the spec: the increment operations of [Progress]; each adds
    exactly 1 to the named counter. *)
Definition increment_processed (t : Tracker) : Tracker :=
  mkTracker (ready t) (started t) (processed t + 1) (completed t).

Definition increment_completed (t : Tracker) : Tracker :=
  mkTracker (ready t) (started t) (processed t) (completed t + 1).

(** Modelled from the spec: the setter of the parent class,
    [Loop.restarting.fset], is not part of this file; it stores the flag that
    says whether the loop resumed from a checkpoint. *)
Definition Loop_restarting_fset (restarting : bool) : M unit :=
  modify (with_self (set_restarting_field restarting)).

(** ** Properties and methods of FitLoop *)

(** [FitLoop.__init__].  [TrainingEpochLoop()] is built by the collaborator's
    own constructor, so the fresh epoch loop is an argument here. *)
Definition __init__ (fresh_epoch_loop : EpochLoop.t) (min_epochs_ max_epochs_ : Z)
  : Outcome FitLoop :=
  if max_epochs_ <? -1 then
    Raise (MisconfigurationException (BadMaxEpochs max_epochs_))
  else
    Return (mkFitLoop max_epochs_ min_epochs_ fresh_epoch_loop
                      (mkProgress (mkTracker 0 0 0 0)) true [] None false).

Definition min_steps (l : FitLoop) : option Z := EpochLoop.min_steps (epoch_loop l).

Definition set_min_steps (value : option Z) : M unit :=
  modify (with_self (with_epoch_loop (set_el_min_steps value))).

Definition max_steps (l : FitLoop) : Z := EpochLoop.max_steps (epoch_loop l).

(** [FitLoop.max_steps.setter]; [value] is [None] or an integer. *)
Definition set_max_steps (value : option Z) : M unit :=
  value' <- match value with
            | None => log MaxStepsNoneDeprecated ;; ret (-1)
            | Some v =>
                if v <? -1 then raise (MisconfigurationException (BadMaxSteps v))
                else ret v
            end ;;
  modify (with_self (with_epoch_loop (set_el_max_steps value'))).

(** [finished_before_on_train_end] of the [restarting] setter:
    [any(v != current.completed for v in (ready, started, processed))]. *)
Definition finished_before_on_train_end (t : Tracker) : bool :=
  existsb (fun v => negb (v =? completed t)) [ready t; started t; processed t].

(** [FitLoop.restarting.setter]. *)
Definition set_restarting (restarting : bool) : M unit :=
  w <- get ;;
  let cur := current (epoch_progress (self w)) in
  let fb := finished_before_on_train_end cur in
  when fb (modify (with_self (with_current (set_completed (processed cur))))) ;;
  let restarting := restarting && fb in
  Loop_restarting_fset restarting.

(** Truth value of an [int] and of an [Optional[int]]. *)
Definition truthy (z : Z) : bool := negb (z =? 0).

Definition truthy_opt (o : option Z) : bool :=
  match o with
  | Some z => truthy z
  | None => false
  end.

Definition met_min_epochs (w : World) : bool :=
  if truthy (min_epochs (self w))
  then processed (current (epoch_progress (self w))) >=? min_epochs (self w)
  else true.

Definition met_min_steps (w : World) : bool :=
  match min_steps (self w) with
  | Some m =>
      if truthy m then EpochLoop.global_step (epoch_loop (self w)) >=? m else true
  | None => true
  end.

Definition no_training_batches (w : World) : bool :=
  match num_training_batches (trainer w) with
  | Batches n => n =? 0
  | Inf => false
  end.

(** The local variable [should_stop] of [FitLoop.done], computed by the
    early-stopping block. *)
Definition done_should_stop : M bool :=
  w <- get ;;
  if should_stop (trainer w) then
    if met_min_epochs w && met_min_steps w then ret true
    else log (MinimumNotMet (min_epochs (self w)) (min_steps (self w))) ;; ret false
  else ret false.

(** [FitLoop.done]. *)
Definition done : M bool :=
  w <- get ;;
  let stop_steps :=
    _is_max_limit_reached (EpochLoop.global_step (epoch_loop (self w))) (max_steps (self w)) in
  let stop_epochs :=
    _is_max_limit_reached (processed (current (epoch_progress (self w)))) (max_epochs (self w)) in
  should_stop_ <- done_should_stop ;;
  modify (with_trainer (set_should_stop should_stop_)) ;;
  w' <- get ;;
  ret (stop_steps || should_stop_ || stop_epochs || no_training_batches w').

(** ** Calls to collaborators *)

(** What the code outside this file does when it is called: how a call
    changes the state of the trainer, what the user's [training_epoch_end]
    returns, and the two queries whose answers steer [on_advance_end].  The
    fields owned by the loop ([self]) are not written by collaborators. *)
Record Collaborators : Type := mkCollaborators {
  effect : Callee -> string -> World -> Trainer;
  training_epoch_end : World -> option PyObject;
  _num_ready_batches_reached : World -> bool;
  exit_signal_received : World -> bool
}.

(** Modelled from the spec: [is_param_in_hook_signature(fx, param,
    explicit=True)] of [utilities.signature_utils] is not part of this file;
    it holds when the hook declares the parameter explicitly. *)
Definition is_param_in_hook_signature_explicit (fx : list string) (param : string) : bool :=
  existsb (String.eqb param) fx.

(** [os.getenv(name, default)]. *)
Definition getenv (w : World) (name default : string) : string :=
  match environ w name with
  | Some v => v
  | None => default
  end.

Definition isinstance_GPUAccelerator (a : Accelerator) : bool :=
  match a with
  | GPUAccelerator => true
  | OtherAccelerator _ => false
  end.

(** [_select_data_fetcher(trainer)]. *)
Definition _select_data_fetcher : M DataFetcherCls :=
  w <- get ;;
  let training_step_fx := training_step (lightning_module (trainer w)) in
  if is_param_in_hook_signature_explicit training_step_fx "dataloader_iter" then
    log DataloaderIterExperimental ;;
    ret DataLoaderIterDataFetcher
  else if String.eqb (getenv w "PL_INTER_BATCH_PARALLELISM" "0") "1" then
    (if negb (isinstance_GPUAccelerator (accelerator (trainer w)))
     then raise (MisconfigurationException InterBatchParallelismNeedsGPU)
     else ret tt) ;;
    ret InterBatchParallelDataFetcher
  else ret DataFetcher.

(** [FitLoop.prefetch_batches]. *)
Definition prefetch_batches (w : World) : Z :=
  let is_unsized :=
    match num_training_batches (trainer w) with
    | Inf => true
    | Batches _ => false
    end in
  let inter_batch_parallelism :=
    String.eqb (getenv w "PL_INTER_BATCH_PARALLELISM" "0") "1" in
  if is_unsized || inter_batch_parallelism then 1 else 0.

Section WithCollaborators.

Variable env : Collaborators.

(** A call into code outside this file: it is recorded with the world it
    could observe, and may change the trainer. *)
Definition call (callee : Callee) (name : string) : M unit :=
  fun w =>
    mkResult (Return tt)
             (mkWorld (self w) (effect env callee name w) (environ w))
             [Call callee name w].

(** A method of [self.epoch_progress]: recorded like any call, its effect
    on the tracker is the one the spec gives. *)
Definition call_progress (name : string) (f : Tracker -> Tracker) : M unit :=
  w <- get ;;
  emit (Call EpochProgress name w) ;;
  modify (with_self (with_current f)).

(** [self._results.to(device=...)]; the [_results] property raises outside
    of training and validation. *)
Definition _results_to_device : M unit :=
  w <- get ;;
  if training (trainer w) then call Results "to"
  else if validating (trainer w) then call Results "to"
  else raise RuntimeError.

(** [trainer._exit_gracefully_on_signal()]. *)
Definition _exit_gracefully_on_signal : M unit :=
  w <- get ;;
  call TrainerSelf "_exit_gracefully_on_signal" ;;
  if exit_signal_received env w then raise ExitGracefullyException else ret tt.

(** [FitLoop.on_run_start]. *)
Definition on_run_start : M unit :=
  call TrainerSelf "reset_train_val_dataloaders" ;;
  data_fetcher_cls <- _select_data_fetcher ;;
  w <- get ;;
  modify (with_self (set_data_fetcher
                       (Some (mkFetcher data_fetcher_cls (prefetch_batches w))))) ;;
  modify (with_self (set_is_fresh_start_epoch true)) ;;
  _results_to_device ;;
  call Callbacks "on_train_start" ;;
  call Module_ "on_train_start" ;;
  call Strategy "on_train_start".

(** [FitLoop.on_advance_end]. *)
Definition on_advance_end : M unit :=
  call LoggerConnector "epoch_end_reached" ;;
  w <- get ;;
  (if overrides_training_epoch_end (lightning_module (trainer w))
      && negb (match _outputs (self w) with [] => true | _ :: _ => false end)
   then
     call EpochLoopCallee "_prepare_outputs_training_epoch_end" ;;
     w' <- get ;;
     call Module_ "training_epoch_end" ;;
     match training_epoch_end env w' with
     | Some _ => raise (MisconfigurationException TrainingEpochEndReturned)
     | None => ret tt
     end
   else ret tt) ;;
  modify (with_self (set_outputs [])) ;;
  call_progress "increment_processed" increment_processed ;;
  call Callbacks "on_train_epoch_end" ;;
  call Module_ "on_train_epoch_end" ;;
  call Callbacks "on_epoch_end" ;;
  call Module_ "on_epoch_end" ;;
  call LoggerConnector "on_epoch_end" ;;
  w <- get ;;
  when (_num_ready_batches_reached env w)
       (call EpochLoopCallee "update_lr_schedulers") ;;
  call_progress "increment_completed" increment_completed ;;
  modify (with_self (with_epoch_loop (add_batches_that_stepped (-1)))) ;;
  call LoggerConnector "update_train_epoch_metrics" ;;
  modify (with_self (with_epoch_loop (add_batches_that_stepped 1))) ;;
  _exit_gracefully_on_signal.

(** [FitLoop.on_run_end]. *)
Definition on_run_end : M unit :=
  log TrainRunEnded ;;
  call Callbacks "on_train_end" ;;
  call Module_ "on_train_end" ;;
  call Strategy "on_train_end".

End WithCollaborators.

(** ** Reading a trace *)

(** The hook invocations of a given name, in the order they were made. *)
Fixpoint hooks_named (name : string) (tr : list Event) : list Callee :=
  match tr with
  | [] => []
  | Call c n _ :: tr' =>
      if String.eqb n name then c :: hooks_named name tr' else hooks_named name tr'
  | Log _ :: tr' => hooks_named name tr'
  end.

(** The worlds observed by the calls [callee.name] of a trace. *)
Fixpoint seen_by (callee : Callee) (name : string) (tr : list Event) : list World :=
  match tr with
  | [] => []
  | Call c n w :: tr' =>
      let same_callee :=
        match c, callee with
        | Callbacks, Callbacks | Module_, Module_ | Strategy, Strategy
        | LoggerConnector, LoggerConnector | TrainerSelf, TrainerSelf
        | EpochProgress, EpochProgress | EpochLoopCallee, EpochLoopCallee
        | Results, Results => true
        | _, _ => false
        end in
      if same_callee && String.eqb n name
      then w :: seen_by callee name tr'
      else seen_by callee name tr'
  | Log _ :: tr' => seen_by callee name tr'
  end.

(** A collaborator set in which nothing outside the loop changes the trainer,
    [training_epoch_end] returns [None] and no exit signal arrives. *)
Definition quiet : Collaborators :=
  mkCollaborators (fun _ _ w => trainer w) (fun _ => None) (fun _ => true) (fun _ => false).

(** ** The conditions of the specification *)

(** [minEpochs == 0 OR progress.current.processed >= minEpochs]. *)
Definition min_epochs_reached (w : World) : Prop :=
  min_epochs (self w) = 0
  \/ processed (current (epoch_progress (self w))) >= min_epochs (self w).

(** [minSteps] is unset or zero, or [globalStepCount >= minSteps]. *)
Definition min_steps_reached (w : World) : Prop :=
  match min_steps (self w) with
  | None => True
  | Some m => m = 0 \/ EpochLoop.global_step (epoch_loop (self w)) >= m
  end.

(** At least one of [ready], [started], [processed] differs from
    [completed]. *)
Definition interrupted (t : Tracker) : Prop :=
  ready t <> completed t \/ started t <> completed t \/ processed t <> completed t.

(** The three capabilities that fetcher selection looks at. *)
Definition declares_dataloader_iter (w : World) : bool :=
  is_param_in_hook_signature_explicit
    (training_step (lightning_module (trainer w))) "dataloader_iter".

Definition inter_batch_parallelism (w : World) : bool :=
  String.eqb (getenv w "PL_INTER_BATCH_PARALLELISM" "0") "1".

Definition on_gpu (w : World) : bool :=
  isinstance_GPUAccelerator (accelerator (trainer w)).

(** The world in which [on_advance_end] tests whether to run
    [training_epoch_end]: the one left by the logger connector's
    [epoch_end_reached]. *)
Definition after_epoch_end_reached (env : Collaborators) (w : World) : World :=
  final (call env LoggerConnector "epoch_end_reached" w).

Definition has_outputs (w : World) : bool :=
  match _outputs (self w) with
  | [] => false
  | _ :: _ => true
  end.

(** ** Example worlds *)

Definition example_module : LightningModule :=
  mkModule ["batch"; "batch_idx"] true.

Definition example_trainer (stop : bool) : Trainer :=
  mkTrainer stop (Batches 10) true false example_module (OtherAccelerator "cpu") 1%nat.

Definition example_loop (min_epochs_ : Z) (t : Tracker) (outs : list PyObject) : FitLoop :=
  mkFitLoop 1000 min_epochs_ (EpochLoop.mk 10 None (-1) 10) (mkProgress t)
            false outs None false.

Definition example_world (min_epochs_ : Z) (t : Tracker) (stop : bool) : World :=
  mkWorld (example_loop min_epochs_ t []) (example_trainer stop) (fun _ => None).

(** ** Further methods of FitLoop *)

(** [FitLoop.connect]: the given epoch loop replaces the current one. *)
Definition connect (new_epoch_loop : EpochLoop.t) : M unit :=
  modify (with_self (with_epoch_loop (fun _ => new_epoch_loop))).

(** [trainer.limit_train_batches] is a number of batches ([int]) or a
    fraction of the dataset ([float]). *)
Inductive BatchLimit : Type :=
| LimitBatches (n : Z)
| LimitFraction (f : spec_float).

(** [limit_train_batches == 0]; an [int] is compared as such, a [float] by
    IEEE equality with zero. *)
Definition limit_is_zero (l : BatchLimit) : bool :=
  match l with
  | LimitBatches n => n =? 0
  | LimitFraction f => SFeqb f (S754_zero false)
  end.

(** [FitLoop.skip]; [limit_train_batches] is the trainer's attribute of that
    name, which nothing in this file writes. *)
Definition skip (limit_train_batches : BatchLimit) : M bool :=
  d <- done ;;
  if d then ret true else ret (limit_is_zero limit_train_batches).

(** [FitLoop.reset].  It reads the flag stored by the parent setter;
    [Progress.reset_on_restart] is not part of this file, so what it does to
    the tracker is an argument. *)
Definition reset (reset_on_restart : Tracker -> Tracker) : M unit :=
  w <- get ;;
  if _restarting (self w)
  then call_progress "reset_on_restart" reset_on_restart
  else ret tt.

(** The calls that [FitLoop.teardown] makes. *)
Inductive TeardownCall : Type :=
| DataFetcherTeardown (fetcher : Fetcher)   (* self._data_fetcher.teardown() *)
| EpochLoopTeardown.                        (* self.epoch_loop.teardown() *)

(** [FitLoop.teardown]: the calls it makes, in order, and the loop it
    leaves.  What [epoch_loop.teardown()] does to the epoch loop is an
    argument. *)
Definition teardown (epoch_loop_teardown : EpochLoop.t -> EpochLoop.t) (l : FitLoop)
  : list TeardownCall * FitLoop :=
  let '(calls, l1) :=
    match _data_fetcher l with
    | Some f => ([DataFetcherTeardown f], set_data_fetcher None l)
    | None => ([], l)
    end in
  ((calls ++ [EpochLoopTeardown])%list, with_epoch_loop epoch_loop_teardown l1).

(** The calls of a trace, without the worlds they saw. *)
Fixpoint calls_of (tr : list Event) : list (Callee * string) :=
  match tr with
  | [] => []
  | Call c n _ :: tr' => (c, n) :: calls_of tr'
  | Log _ :: tr' => calls_of tr'
  end.

(** The loop, its counters aside: two loops agree on everything except the
    step and epoch counters. *)
Definition same_limits_and_flags (w w' : World) : Prop :=
  trainer w' = trainer w
  /\ max_epochs (self w') = max_epochs (self w)
  /\ min_epochs (self w') = min_epochs (self w)
  /\ max_steps (self w') = max_steps (self w)
  /\ min_steps (self w') = min_steps (self w).

(** ** Proof automation *)

Ltac conjs := repeat match goal with |- _ /\ _ => split end.

(** Runs [on_advance_end] symbolically, splitting on every test it makes. *)
Ltac eval_advance_end env w :=
  unfold on_advance_end, _exit_gracefully_on_signal, call_progress, call, when, bind, get,
    modify, emit, ret, raise;
  cbn [outcome final emitted self trainer environ app];
  destruct (overrides_training_epoch_end _) eqn:Hov;
  [ destruct (_outputs (self w)) as [ | o outs] eqn:Hout | ];
  cbn [andb negb outcome final emitted self trainer environ app];
  try (destruct (training_epoch_end env _) as [v | ] eqn:Hret;
       cbn [outcome final emitted self trainer environ app]);
  try (destruct (_num_ready_batches_reached env _) eqn:Hrb;
       cbn [outcome final emitted self trainer environ app];
       destruct (exit_signal_received env _) eqn:Hsig;
       cbn [outcome final emitted self trainer environ app]).

(** ** The stop condition *)

Lemma limit_reached_iff (c m : Z) :
  _is_max_limit_reached c m = true <-> m <> -1 /\ c >= m.
Proof.
  unfold _is_max_limit_reached.
  rewrite andb_true_iff, negb_true_iff, Z.eqb_neq, Z.geb_le. lia.
Qed.

Lemma met_min_epochs_iff (w : World) :
  met_min_epochs w = true <-> min_epochs_reached w.
Proof.
  unfold met_min_epochs, min_epochs_reached, truthy.
  destruct (Z.eqb_spec (min_epochs (self w)) 0) as [E | E]; simpl.
  - intuition.
  - rewrite Z.geb_le. lia.
Qed.

Lemma met_min_steps_iff (w : World) :
  met_min_steps w = true <-> min_steps_reached w.
Proof.
  unfold met_min_steps, min_steps_reached, truthy.
  destruct (min_steps (self w)) as [m | ]; [ | intuition].
  destruct (Z.eqb_spec m 0) as [E | E]; simpl.
  - intuition.
  - rewrite Z.geb_le. lia.
Qed.

Lemma done_should_stop_eq (w : World) :
  done_should_stop w
  = mkResult (Return (should_stop (trainer w) && (met_min_epochs w && met_min_steps w)))
             w
             (if should_stop (trainer w) && negb (met_min_epochs w && met_min_steps w)
              then [Log (MinimumNotMet (min_epochs (self w)) (min_steps (self w)))]
              else []).
Proof.
  unfold done_should_stop, bind, get; simpl.
  destruct (should_stop (trainer w)); simpl; [ | reflexivity].
  destruct (met_min_epochs w && met_min_steps w); reflexivity.
Qed.

Lemma done_eq (w : World) :
  done w
  = mkResult
      (Return (_is_max_limit_reached (EpochLoop.global_step (epoch_loop (self w)))
                                     (max_steps (self w))
               || (should_stop (trainer w) && (met_min_epochs w && met_min_steps w))
               || _is_max_limit_reached (processed (current (epoch_progress (self w))))
                                        (max_epochs (self w))
               || no_training_batches w))
      (with_trainer
         (set_should_stop (should_stop (trainer w) && (met_min_epochs w && met_min_steps w)))
         w)
      (if should_stop (trainer w) && negb (met_min_epochs w && met_min_steps w)
       then [Log (MinimumNotMet (min_epochs (self w)) (min_steps (self w)))]
       else []).
Proof.
  unfold done. unfold bind at 1. simpl. unfold bind at 1.
  rewrite done_should_stop_eq. simpl. rewrite app_nil_r. reflexivity.
Qed.

Lemma done_should_stop_outcome (w : World) :
  outcome (done_should_stop w)
  = Return (should_stop (trainer w) && (met_min_epochs w && met_min_steps w)).
Proof. rewrite done_should_stop_eq. reflexivity. Qed.

Lemma done_outcome (w : World) :
  outcome (done w)
  = Return (_is_max_limit_reached (EpochLoop.global_step (epoch_loop (self w)))
                                  (max_steps (self w))
            || (should_stop (trainer w) && (met_min_epochs w && met_min_steps w))
            || _is_max_limit_reached (processed (current (epoch_progress (self w))))
                                     (max_epochs (self w))
            || no_training_batches w).
Proof. rewrite done_eq. reflexivity. Qed.


Lemma no_training_batches_iff (w : World) :
  no_training_batches w = true <-> num_training_batches (trainer w) = Batches 0.
Proof.
  unfold no_training_batches.
  destruct (num_training_batches (trainer w)) as [n | ].
  - rewrite Z.eqb_eq. split; [intros -> | intros [= ->]]; reflexivity.
  - split; discriminate.
Qed.

(** C1. [done] always returns, and it returns [True] exactly when the step
    limit is set and reached, or the epoch limit is set and reached, or an
    early stop is requested and both minimums are met, or there are no
    training batches. *)
Theorem done_true_iff (w : World) :
  exists b : bool,
    outcome (done w) = Return b
    /\ (b = true <->
        (max_steps (self w) <> -1
         /\ EpochLoop.global_step (epoch_loop (self w)) >= max_steps (self w))
        \/ (max_epochs (self w) <> -1
            /\ processed (current (epoch_progress (self w))) >= max_epochs (self w))
        \/ (should_stop (trainer w) = true
            /\ min_epochs_reached w /\ min_steps_reached w)
        \/ num_training_batches (trainer w) = Batches 0).
Proof.
  eexists. split; [apply done_outcome | ].
  rewrite !orb_true_iff, !andb_true_iff, !limit_reached_iff,
    met_min_epochs_iff, met_min_steps_iff, no_training_batches_iff.
  tauto.
Qed.




(** ** Restart reconciliation *)

Lemma finished_before_on_train_end_iff (t : Tracker) :
  finished_before_on_train_end t = true <-> interrupted t.
Proof.
  unfold finished_before_on_train_end, interrupted. simpl.
  rewrite !orb_true_iff, !negb_true_iff, !Z.eqb_neq. intuition discriminate.
Qed.

Lemma set_restarting_final (flag : bool) (w : World) :
  final (set_restarting flag w)
  = let cur := current (epoch_progress (self w)) in
    let fb := finished_before_on_train_end cur in
    with_self (set_restarting_field (flag && fb))
              (if fb then with_self (with_current (set_completed (processed cur))) w
               else w).
Proof.
  unfold set_restarting, Loop_restarting_fset, when, bind, get, modify. simpl.
  destruct (finished_before_on_train_end (current (epoch_progress (self w))));
    reflexivity.
Qed.

Lemma set_restarting_outcome (flag : bool) (w : World) :
  outcome (set_restarting flag w) = Return tt.
Proof.
  unfold set_restarting, Loop_restarting_fset, when, bind, get, modify. simpl.
  destruct (finished_before_on_train_end (current (epoch_progress (self w))));
    reflexivity.
Qed.

(** C3 (as stated, refuted).  With [ready = started = processed = 1] and
    [completed = 0], the setter called with [True] advances [completed] to 1
    but the stored flag does not end up [False]. *)
Lemma restart_after_interruption_keeps_flag :
  let w := example_world 0 (mkTracker 1 1 1 0) false in
  let w' := final (set_restarting true w) in
  ~ (completed (current (epoch_progress (self w'))) = 1
     /\ _restarting (self w') = false).
Proof.
  cbv zeta. vm_compute. intros [_ H]. discriminate.
Qed.

(** C3 (amended).  With [ready = started = processed = N] and
    [completed = N - 1], the setter called with [True] yields
    [completed = N] and stores the flag as [True]: the interruption counts
    as a restart. *)
Theorem restart_after_interruption (w : World) (N : Z) :
  ready (current (epoch_progress (self w))) = N ->
  started (current (epoch_progress (self w))) = N ->
  processed (current (epoch_progress (self w))) = N ->
  completed (current (epoch_progress (self w))) = N - 1 ->
  let w' := final (set_restarting true w) in
  outcome (set_restarting true w) = Return tt
  /\ completed (current (epoch_progress (self w'))) = N
  /\ _restarting (self w') = true.
Proof.
  intros Hr Hs Hp Hc w'. subst w'.
  assert (F : finished_before_on_train_end (current (epoch_progress (self w))) = true).
  { apply finished_before_on_train_end_iff. left. lia. }
  rewrite set_restarting_outcome, set_restarting_final. cbv zeta. rewrite F.
  simpl. auto.
Qed.

Lemma restart_after_interruption_witness :
  let w := example_world 0 (mkTracker 3 3 3 2) false in
  completed (current (epoch_progress (self (final (set_restarting true w))))) = 3
  /\ _restarting (self (final (set_restarting true w))) = true.
Proof.
  cbv zeta.
  apply (restart_after_interruption (example_world 0 (mkTracker 3 3 3 2) false) 3);
    reflexivity.
Defined.

(** C4.  The setter writes [processed] into [completed] exactly when one of
    [ready], [started], [processed] differs from [completed]; otherwise
    [completed] is left as it was.  The other counters are never written.
    The flag is stored as [True] exactly when [True] was passed and the
    counters differ; with all counters equal it is stored as [False]. *)
Theorem restarting_setter_reconciles (flag : bool) (w : World) :
  let cur := current (epoch_progress (self w)) in
  let cur' := current (epoch_progress (self (final (set_restarting flag w)))) in
  outcome (set_restarting flag w) = Return tt
  /\ (finished_before_on_train_end cur = true <-> interrupted cur)
  /\ cur' = (if finished_before_on_train_end cur
             then set_completed (processed cur) cur
             else cur)
  /\ (interrupted cur -> completed cur' = processed cur)
  /\ (~ interrupted cur -> completed cur' = completed cur)
  /\ (_restarting (self (final (set_restarting flag w))) = true
      <-> flag = true /\ interrupted cur)
  /\ (~ interrupted cur -> _restarting (self (final (set_restarting flag w))) = false).
Proof.
  cbv zeta.
  pose proof (finished_before_on_train_end_iff (current (epoch_progress (self w)))) as F.
  rewrite set_restarting_outcome, set_restarting_final. cbv zeta.
  destruct (finished_before_on_train_end (current (epoch_progress (self w)))) eqn:E;
    simpl; rewrite ?andb_true_r, ?andb_false_r.
  - assert (I : interrupted (current (epoch_progress (self w)))) by (apply F; reflexivity).
    repeat apply conj;
      solve [ tauto | reflexivity
            | destruct (current (epoch_progress (self w))); reflexivity ].
  - assert (I : ~ interrupted (current (epoch_progress (self w))))
      by (intros I; apply F in I; discriminate).
    repeat apply conj;
      solve [ tauto | reflexivity | intuition discriminate
            | destruct (current (epoch_progress (self w))); reflexivity ].
Qed.

Lemma restarting_setter_reconciles_witness :
  let w := example_world 0 (mkTracker 2 2 2 2) false in
  ~ interrupted (current (epoch_progress (self w)))
  /\ _restarting (self (final (set_restarting true w))) = false.
Proof.
  cbv zeta.
  assert (N : ~ interrupted
                (current (epoch_progress (self (example_world 0 (mkTracker 2 2 2 2) false))))).
  { unfold interrupted. simpl. lia. }
  split; [exact N | ].
  exact (proj2 (proj2 (proj2 (proj2 (proj2 (proj2
           (restarting_setter_reconciles true
              (example_world 0 (mkTracker 2 2 2 2) false))))))) N).
Defined.

(** ** Limits *)

Lemma set_max_steps_accepts (w : World) (v : Z) :
  -1 <= v ->
  set_max_steps (Some v) w
  = mkResult (Return tt) (with_self (with_epoch_loop (set_el_max_steps v)) w) [].
Proof.
  intros H. unfold set_max_steps, bind. simpl.
  destruct (Z.ltb_spec v (-1)); [lia | reflexivity].
Qed.

Lemma set_max_steps_rejects (w : World) (v : Z) :
  v < -1 ->
  set_max_steps (Some v) w
  = mkResult (Raise (MisconfigurationException (BadMaxSteps v))) w [].
Proof.
  intros H. unfold set_max_steps, bind. simpl.
  destruct (Z.ltb_spec v (-1)); [reflexivity | lia].
Qed.

(** C6.  The constructor raises a configuration error, and yields no loop,
    when [max_epochs < -1]; the [max_steps] setter raises a configuration
    error for an integer below -1 and leaves the world, and so the stored
    [max_steps], as it was.  Every [max_epochs >= -1] and every
    [max_steps >= -1] is accepted and stored. *)
Theorem limits_validation (fresh : EpochLoop.t) (min_e max_e v : Z) (w : World) :
  (max_e < -1 ->
     __init__ fresh min_e max_e = Raise (MisconfigurationException (BadMaxEpochs max_e)))
  /\ (-1 <= max_e ->
     exists l, __init__ fresh min_e max_e = Return l
               /\ max_epochs l = max_e /\ min_epochs l = min_e)
  /\ (v < -1 ->
     outcome (set_max_steps (Some v) w) = Raise (MisconfigurationException (BadMaxSteps v))
     /\ final (set_max_steps (Some v) w) = w
     /\ max_steps (self (final (set_max_steps (Some v) w))) = max_steps (self w))
  /\ (-1 <= v ->
     outcome (set_max_steps (Some v) w) = Return tt
     /\ max_steps (self (final (set_max_steps (Some v) w))) = v).
Proof.
  repeat apply conj.
  - intros H. unfold __init__. destruct (Z.ltb_spec max_e (-1)); [reflexivity | lia].
  - intros H. unfold __init__. destruct (Z.ltb_spec max_e (-1)); [lia | ].
    eexists. split; [reflexivity | split; reflexivity].
  - intros H. rewrite (set_max_steps_rejects w v H). simpl. auto.
  - intros H. rewrite (set_max_steps_accepts w v H). simpl. auto.
Qed.

Lemma limits_validation_witness :
  let w := example_world 0 (mkTracker 0 0 0 0) false in
  __init__ (EpochLoop.mk 0 None (-1) 0) 0 (-2)
  = Raise (MisconfigurationException (BadMaxEpochs (-2)))
  /\ max_steps (self (final (set_max_steps (Some (-5)) w))) = max_steps (self w)
  /\ max_steps (self (final (set_max_steps (Some 7) w))) = 7.
Proof.
  cbv zeta.
  pose proof (limits_validation (EpochLoop.mk 0 None (-1) 0) 0 (-2) (-5)
                (example_world 0 (mkTracker 0 0 0 0) false)) as [H1 [_ [H3 _]]].
  pose proof (limits_validation (EpochLoop.mk 0 None (-1) 0) 0 (-2) 7
                (example_world 0 (mkTracker 0 0 0 0) false)) as [_ [_ [_ H4]]].
  repeat apply conj.
  - apply H1. lia.
  - apply H3. lia.
  - apply H4. lia.
Defined.

(** C10.  Setting [max_steps] to [None] does not raise: it emits the
    deprecation warning and stores -1, which the getter then returns.  The
    setter raises exactly for the integers below -1. *)
Theorem max_steps_none_is_unbounded (w : World) :
  outcome (set_max_steps None w) = Return tt
  /\ emitted (set_max_steps None w) = [Log MaxStepsNoneDeprecated]
  /\ max_steps (self (final (set_max_steps None w))) = -1
  /\ (forall value : option Z,
        (exists e, outcome (set_max_steps value w) = Raise e)
        <-> (exists v, value = Some v /\ v < -1)).
Proof.
  repeat apply conj; try reflexivity.
  intros [v | ]; split.
  - intros [e He]. exists v. split; [reflexivity | ].
    destruct (Z.lt_ge_cases v (-1)) as [L | G]; [exact L | ].
    rewrite (set_max_steps_accepts w v G) in He. discriminate.
  - intros [v' [[= <-] L]]. rewrite (set_max_steps_rejects w v L). simpl. eauto.
  - intros [e He]. discriminate.
  - intros [v [H _]]. discriminate.
Qed.

(** ** Fetcher selection *)

Lemma select_data_fetcher_eq (w : World) :
  _select_data_fetcher w
  = if declares_dataloader_iter w
    then mkResult (Return DataLoaderIterDataFetcher) w [Log DataloaderIterExperimental]
    else if inter_batch_parallelism w
         then if on_gpu w
              then mkResult (Return InterBatchParallelDataFetcher) w []
              else mkResult (Raise (MisconfigurationException InterBatchParallelismNeedsGPU))
                            w []
         else mkResult (Return DataFetcher) w [].
Proof.
  unfold _select_data_fetcher, declares_dataloader_iter, inter_batch_parallelism, on_gpu,
    bind, get. simpl.
  destruct (is_param_in_hook_signature_explicit _ _); [reflexivity | ].
  destruct (String.eqb _ _); [ | reflexivity].
  destruct (isinstance_GPUAccelerator _); reflexivity.
Qed.

(** C5.  Selection leaves the world alone and depends only on three
    capabilities, looked at in this order: a [training_step] that declares
    [dataloader_iter] gives the iterator-passthrough fetcher and a warning;
    else the parallelism flag without a GPU accelerator raises a configuration
    error; else the flag with a GPU accelerator gives the parallel-prefetch
    fetcher; else the default fetcher is returned. *)
Theorem select_data_fetcher_policy (w : World) :
  let r := _select_data_fetcher w in
  final r = w
  /\ (declares_dataloader_iter w = true
      <-> In "dataloader_iter" (training_step (lightning_module (trainer w))))
  /\ (inter_batch_parallelism w = true
      <-> environ w "PL_INTER_BATCH_PARALLELISM" = Some "1")
  /\ (on_gpu w = true <-> accelerator (trainer w) = GPUAccelerator)
  /\ (declares_dataloader_iter w = true ->
      outcome r = Return DataLoaderIterDataFetcher
      /\ emitted r = [Log DataloaderIterExperimental])
  /\ (declares_dataloader_iter w = false -> inter_batch_parallelism w = true ->
      on_gpu w = false ->
      outcome r = Raise (MisconfigurationException InterBatchParallelismNeedsGPU)
      /\ emitted r = [])
  /\ (declares_dataloader_iter w = false -> inter_batch_parallelism w = true ->
      on_gpu w = true ->
      outcome r = Return InterBatchParallelDataFetcher /\ emitted r = [])
  /\ (declares_dataloader_iter w = false -> inter_batch_parallelism w = false ->
      outcome r = Return DataFetcher /\ emitted r = [])
  /\ (forall w2 : World,
        declares_dataloader_iter w2 = declares_dataloader_iter w ->
        inter_batch_parallelism w2 = inter_batch_parallelism w ->
        on_gpu w2 = on_gpu w ->
        outcome (_select_data_fetcher w2) = outcome r
        /\ emitted (_select_data_fetcher w2) = emitted r).
Proof.
  cbv zeta. conjs.
  - rewrite select_data_fetcher_eq.
    destruct (declares_dataloader_iter w), (inter_batch_parallelism w), (on_gpu w);
      reflexivity.
  - unfold declares_dataloader_iter, is_param_in_hook_signature_explicit.
    rewrite existsb_exists. split.
    + intros [x [Hin Heq]]. apply String.eqb_eq in Heq. subst x. exact Hin.
    + intros Hin. exists "dataloader_iter". split; [exact Hin | apply String.eqb_refl].
  - unfold inter_batch_parallelism, getenv. rewrite String.eqb_eq.
    destruct (environ w "PL_INTER_BATCH_PARALLELISM") as [s | ].
    + split; [intros -> | intros [= ->]]; reflexivity.
    + split; discriminate.
  - unfold on_gpu. destruct (accelerator (trainer w)); simpl; split;
      solve [reflexivity | discriminate].
  - intros H. rewrite select_data_fetcher_eq, H. auto.
  - intros H1 H2 H3. rewrite select_data_fetcher_eq, H1, H2, H3. auto.
  - intros H1 H2 H3. rewrite select_data_fetcher_eq, H1, H2, H3. auto.
  - intros H1 H2. rewrite select_data_fetcher_eq, H1, H2. auto.
  - intros w2 H1 H2 H3. rewrite !select_data_fetcher_eq, H1, H2, H3.
    destruct (declares_dataloader_iter w), (inter_batch_parallelism w), (on_gpu w);
      auto.
Qed.

Lemma select_data_fetcher_policy_witness :
  let w := mkWorld (example_loop 0 (mkTracker 0 0 0 0) [])
                   (example_trainer false)
                   (fun name => if String.eqb name "PL_INTER_BATCH_PARALLELISM"
                                then Some "1" else None) in
  outcome (_select_data_fetcher w)
  = Raise (MisconfigurationException InterBatchParallelismNeedsGPU)
  /\ emitted (_select_data_fetcher w) = [].
Proof.
  cbv zeta.
  refine (proj1 (proj2 (proj2 (proj2 (proj2 (proj2
            (select_data_fetcher_policy _)))))) _ _ _); reflexivity.
Defined.

(** ** The end of an epoch *)

(** C7.  [training_epoch_end] is invoked exactly when the model overrides it
    and the epoch's outputs are not empty, and then once.  If the invoked
    hook returns anything but [None], [on_advance_end] raises the
    configuration error, and that error has no other cause; the loop's own
    state is then left as it was.  In every other run the outputs are empty
    when [increment_processed] is called, that call still sees the old
    [processed], and the outputs are empty at the end. *)
Theorem training_epoch_end_contract (env : Collaborators) (w : World) :
  let r := on_advance_end env w in
  let invoked :=
    overrides_training_epoch_end (lightning_module (trainer (after_epoch_end_reached env w)))
    && has_outputs w in
  hooks_named "training_epoch_end" (emitted r) = (if invoked then [Module_] else [])
  /\ (forall wh : World,
        In wh (seen_by Module_ "training_epoch_end" (emitted r)) ->
        training_epoch_end env wh <> None ->
        outcome r = Raise (MisconfigurationException TrainingEpochEndReturned))
  /\ (outcome r = Raise (MisconfigurationException TrainingEpochEndReturned) ->
      invoked = true
      /\ (exists wh : World,
            seen_by Module_ "training_epoch_end" (emitted r) = [wh]
            /\ training_epoch_end env wh <> None)
      /\ seen_by EpochProgress "increment_processed" (emitted r) = []
      /\ self (final r) = self w)
  /\ (outcome r <> Raise (MisconfigurationException TrainingEpochEndReturned) ->
      _outputs (self (final r)) = []
      /\ processed (current (epoch_progress (self (final r))))
         = processed (current (epoch_progress (self w))) + 1
      /\ exists wp : World,
           seen_by EpochProgress "increment_processed" (emitted r) = [wp]
           /\ _outputs (self wp) = []
           /\ processed (current (epoch_progress (self wp)))
              = processed (current (epoch_progress (self w)))).
Proof.
  cbv zeta. unfold after_epoch_end_reached, has_outputs.
  eval_advance_end env w;
    cbn [call final trainer self]; rewrite ?Hov, ?Hout; cbn [andb];
    (split; [reflexivity | ]);
    (split; [ cbn; intros wh Hin Hne;
              solve [ reflexivity | contradiction
                    | destruct Hin as [<- | []]; congruence ] | ]);
    (split; [ intros Hraise;
              solve [ discriminate Hraise
                    | conjs; [ reflexivity
                             | eexists; split; [reflexivity | congruence]
                             | reflexivity
                             | reflexivity ] ] | ]);
    intros Hok;
    solve [ exfalso; apply Hok; reflexivity
          | conjs; [ reflexivity | reflexivity
                   | eexists; conjs; reflexivity ] ].
Qed.

Lemma training_epoch_end_contract_witness :
  let w := mkWorld (example_loop 0 (mkTracker 1 1 0 0) [Handle 1; Handle 2])
                   (example_trainer false) (fun _ => None) in
  let returns_value :=
    mkCollaborators (fun _ _ w => trainer w) (fun _ => Some (Handle 7))
                    (fun _ => true) (fun _ => false) in
  _outputs (self w) <> []
  /\ outcome (on_advance_end returns_value w)
     = Raise (MisconfigurationException TrainingEpochEndReturned)
  /\ _outputs (self (final (on_advance_end quiet w))) = [].
Proof.
  cbv zeta. conjs.
  - discriminate.
  - refine (proj1 (proj2 (training_epoch_end_contract _ _)) _ _ _).
    + vm_compute. left. reflexivity.
    + discriminate.
  - refine (proj1 (proj2 (proj2 (proj2 (training_epoch_end_contract quiet _))) _)).
    vm_compute. discriminate.
Defined.

Lemma add_batches_that_stepped_back (l : FitLoop) :
  with_epoch_loop (add_batches_that_stepped 1)
    (with_epoch_loop (add_batches_that_stepped (-1)) l) = l.
Proof.
  destruct l as [mx mn el pr fr out df rs]. destruct el as [gs ms xs bs].
  unfold with_epoch_loop, add_batches_that_stepped. simpl.
  do 2 f_equal. lia.
Qed.



(** ** The start and the end of a run *)

(** C8.  When [on_run_start] returns, its last three calls are the
    [on_train_start] hooks of the callbacks, the model and the strategy, in
    this order, and no [on_train_start] hook is called before them; when it
    raises, none is called at all.  [on_run_end] always returns, and after
    its log line it calls exactly the [on_train_end] hooks of the callbacks,
    the model and the strategy, in this order. *)
Theorem train_start_end_hook_order (env : Collaborators) (w : World) :
  let rs := on_run_start env w in
  let re := on_run_end env w in
  (outcome rs = Return tt ->
   exists (pre : list Event) (w1 w2 w3 : World),
     emitted rs = (pre ++ [Call Callbacks "on_train_start" w1;
                           Call Module_ "on_train_start" w2;
                           Call Strategy "on_train_start" w3])%list
     /\ hooks_named "on_train_start" pre = [])
  /\ (outcome rs <> Return tt -> hooks_named "on_train_start" (emitted rs) = [])
  /\ (hooks_named "on_train_start" (emitted rs) = [Callbacks; Module_; Strategy]
      \/ hooks_named "on_train_start" (emitted rs) = [])
  /\ outcome re = Return tt
  /\ (exists w1 w2 w3 : World,
        emitted re = [Log TrainRunEnded;
                      Call Callbacks "on_train_end" w1;
                      Call Module_ "on_train_end" w2;
                      Call Strategy "on_train_end" w3])
  /\ hooks_named "on_train_end" (emitted re) = [Callbacks; Module_; Strategy].
Proof.
  cbv zeta.
  assert (Hend : on_run_end env w
                 = mkResult (Return tt) (final (on_run_end env w))
                     [Log TrainRunEnded;
                      Call Callbacks "on_train_end" w;
                      Call Module_ "on_train_end"
                           (final (call env Callbacks "on_train_end" w));
                      Call Strategy "on_train_end"
                           (final (call env Module_ "on_train_end"
                                     (final (call env Callbacks "on_train_end" w))))])
    by reflexivity.
  assert (Hstart :
            (outcome (on_run_start env w) = Return tt
             /\ exists (pre : list Event) (w1 w2 w3 : World),
                 emitted (on_run_start env w)
                 = (pre ++ [Call Callbacks "on_train_start" w1;
                            Call Module_ "on_train_start" w2;
                            Call Strategy "on_train_start" w3])%list
                 /\ hooks_named "on_train_start" pre = [])
            \/ (outcome (on_run_start env w) <> Return tt
                /\ hooks_named "on_train_start" (emitted (on_run_start env w)) = [])).
  { remember (on_run_start env w) as r eqn:E.
    unfold on_run_start in E. unfold bind at 1 in E. cbn [call] in E.
    unfold bind at 1 in E. rewrite select_data_fetcher_eq in E.
    set (w0 := mkWorld _ _ _) in E.
    unfold _results_to_device, call, bind, get, modify, raise, ret in E.
    destruct (declares_dataloader_iter w0);
      [ | destruct (inter_batch_parallelism w0); [destruct (on_gpu w0) | ] ];
      cbn [self trainer environ with_self app outcome final emitted] in E;
      try (subst r; right; split; [discriminate | reflexivity]);
      destruct (training (trainer w0));
      try destruct (validating (trainer w0));
      cbn [self trainer environ with_self app outcome final emitted] in E;
      subst r; cbn [outcome emitted];
      try (right; split; [discriminate | reflexivity]);
      left; (split; [reflexivity | ]);
      match goal with
      | |- exists pre w1 w2 w3, ?a :: ?tr = _ /\ _ =>
          let rec cut l :=
            lazymatch l with
            | [_; _; _] => constr:(@nil Event)
            | ?x :: ?l' => let p := cut l' in constr:(x :: p)
            end in
          let p := cut (a :: tr) in
          exists p
      end;
      do 3 eexists; split; reflexivity. }
  conjs.
  - intros Hret. destruct Hstart as [[_ H] | [H _]]; [exact H | contradiction].
  - intros Hraise. destruct Hstart as [[H _] | [_ H]]; [contradiction | exact H].
  - destruct Hstart as [[_ [pre [w1 [w2 [w3 [E P]]]]]] | [_ H]]; [left | right; exact H].
    rewrite E. clear E.
    induction pre as [ | e pre IH]; [reflexivity | ].
    destruct e as [c n s | m]; cbn [app hooks_named] in *.
    + destruct (String.eqb n "on_train_start"); [discriminate P | exact (IH P)].
    + exact (IH P).
  - rewrite Hend. reflexivity.
  - rewrite Hend. do 3 eexists. reflexivity.
  - rewrite Hend. reflexivity.
Qed.

Lemma train_start_end_hook_order_witness :
  let w := example_world 0 (mkTracker 0 0 0 0) false in
  outcome (on_run_start quiet w) = Return tt
  /\ hooks_named "on_train_start" (emitted (on_run_start quiet w))
     = [Callbacks; Module_; Strategy].
Proof.
  cbv zeta.
  assert (Hret : outcome (on_run_start quiet (example_world 0 (mkTracker 0 0 0 0) false))
                 = Return tt) by reflexivity.
  split; [exact Hret | ].
  destruct (proj1 (train_start_end_hook_order quiet _) Hret) as [pre [w1 [w2 [w3 [E P]]]]].
  reflexivity.
Defined.

(** ** More on the stop condition *)

(** X1.  Checking twice in a row changes nothing: the second [done] returns
    what the first returned, leaves the world the first left, and logs
    nothing, also when the first suppressed a stop request. *)
Theorem done_twice (w : World) :
  outcome (done (final (done w))) = outcome (done w)
  /\ final (done (final (done w))) = final (done w)
  /\ emitted (done (final (done w))) = [].
Proof.
  rewrite (done_eq (final (done w))). rewrite !done_eq.
  cbn [outcome final emitted].
  set (b := should_stop (trainer w) && (met_min_epochs w && met_min_steps w)).
  assert (Hb : b && (met_min_epochs w && met_min_steps w) = b).
  { subst b. destruct (should_stop (trainer w)), (met_min_epochs w && met_min_steps w);
      reflexivity. }
  assert (Hn : b && negb (met_min_epochs w && met_min_steps w) = false).
  { subst b. destruct (should_stop (trainer w)), (met_min_epochs w && met_min_steps w);
      reflexivity. }
  change (met_min_epochs (with_trainer (set_should_stop b) w)) with (met_min_epochs w).
  change (met_min_steps (with_trainer (set_should_stop b) w)) with (met_min_steps w).
  change (should_stop (trainer (with_trainer (set_should_stop b) w))) with b.
  rewrite Hb, Hn. conjs; reflexivity.
Qed.

(** X2.  [done] never raises the stop flag, and a flag that is still up after
    the check means that the check returned [True]; apart from that flag the
    world is left as it was. *)
Theorem done_leaves_flag_only_when_done (w : World) :
  should_stop (trainer (final (done w))) = true ->
  should_stop (trainer w) = true
  /\ outcome (done w) = Return true
  /\ final (done w) = w.
Proof.
  rewrite done_eq. cbn [outcome final]. intros H.
  change (should_stop (trainer w) && (met_min_epochs w && met_min_steps w) = true) in H.
  rewrite H. rewrite orb_true_r. cbn [orb].
  apply andb_true_iff in H as [Hs _].
  conjs; [exact Hs | reflexivity | ].
  destruct w as [l t e]. destruct t as [ss nb tr va lm ac no].
  cbn in Hs. subst ss. reflexivity.
Qed.

Lemma done_leaves_flag_only_when_done_witness :
  let w := example_world 1 (mkTracker 1 1 1 1) true in
  should_stop (trainer (final (done w))) = true
  /\ outcome (done w) = Return true.
Proof.
  cbv zeta.
  assert (H : should_stop (trainer (final (done (example_world 1 (mkTracker 1 1 1 1) true))))
              = true) by reflexivity.
  split; [exact H | ].
  exact (proj1 (proj2 (done_leaves_flag_only_when_done _ H))).
Defined.

(** X3.  Progress never re-opens a finished loop: if [done] returns [True]
    and the counters [processed] and [global_step] then only grow, with the
    limits, the stop flag and the number of batches as they were, [done]
    returns [True] again. *)
Theorem done_monotone (w w' : World) :
  same_limits_and_flags w w' ->
  processed (current (epoch_progress (self w)))
  <= processed (current (epoch_progress (self w'))) ->
  EpochLoop.global_step (epoch_loop (self w))
  <= EpochLoop.global_step (epoch_loop (self w')) ->
  outcome (done w) = Return true ->
  outcome (done w') = Return true.
Proof.
  intros [Ht [Hxe [Hne [Hxs Hns]]]] Hp Hg H.
  rewrite done_outcome in H. injection H as H.
  rewrite done_outcome. f_equal.
  rewrite !orb_true_iff, !andb_true_iff, !limit_reached_iff,
    met_min_epochs_iff, met_min_steps_iff, no_training_batches_iff in *.
  destruct H as [[[[A B] | [A [B C]]] | [A B]] | A].
  - left; left; left. rewrite Hxs. split; [exact A | lia].
  - left; left; right. rewrite Ht. split; [exact A | ]. split.
    + unfold min_epochs_reached in *. rewrite Hne. lia.
    + unfold min_steps_reached in *. rewrite Hns.
      destruct (min_steps (self w)); [lia | exact I].
  - left; right. rewrite Hxe. split; [exact A | lia].
  - right. rewrite Ht. exact A.
Qed.

Lemma done_monotone_witness :
  let w := mkWorld (mkFitLoop 3 0 (EpochLoop.mk 30 None (-1) 30)
                              (mkProgress (mkTracker 3 3 3 3)) false [] None false)
                   (example_trainer false) (fun _ => None) in
  let w' := mkWorld (mkFitLoop 3 0 (EpochLoop.mk 40 None (-1) 40)
                               (mkProgress (mkTracker 4 4 4 4)) false [] None false)
                    (example_trainer false) (fun _ => None) in
  outcome (done w) = Return true /\ outcome (done w') = Return true.
Proof.
  cbv zeta.
  assert (H : outcome (done (mkWorld (mkFitLoop 3 0 (EpochLoop.mk 30 None (-1) 30)
                                        (mkProgress (mkTracker 3 3 3 3)) false [] None false)
                                     (example_trainer false) (fun _ => None)))
              = Return true) by reflexivity.
  split; [exact H | ].
  refine (done_monotone _ _ _ _ _ H).
  - unfold same_limits_and_flags. conjs; reflexivity.
  - simpl. lia.
  - simpl. lia.
Defined.

Lemma skip_eq (lim : BatchLimit) (w : World) :
  skip lim w
  = match done w with
    | mkResult (Return d) w1 tr => mkResult (Return (d || limit_is_zero lim)) w1 tr
    | mkResult (Raise e) w1 tr => mkResult (Raise e) w1 tr
    end.
Proof.
  unfold skip, bind. rewrite done_eq.
  destruct (_ || _ || _ || _); cbn; rewrite app_nil_r; reflexivity.
Qed.

(** X4.  [skip] is not a pure query.  It returns [True] exactly when [done]
    does or [limit_train_batches] is zero, and it always performs the check
    of [done] first: a stop request that the minimums suppress is logged and
    cleared even when [skip] returns [True] only because the limit is zero. *)
Theorem skip_runs_done (lim : BatchLimit) (w : World) :
  (outcome (skip lim w) = Return true
   <-> outcome (done w) = Return true \/ limit_is_zero lim = true)
  /\ (exists b : bool, outcome (skip lim w) = Return b)
  /\ final (skip lim w) = final (done w)
  /\ emitted (skip lim w) = emitted (done w)
  /\ (should_stop (trainer w) = true ->
      ~ (min_epochs_reached w /\ min_steps_reached w) ->
      should_stop (trainer (final (skip lim w))) = false
      /\ emitted (skip lim w)
         = [Log (MinimumNotMet (min_epochs (self w)) (min_steps (self w)))]).
Proof.
  rewrite skip_eq, done_eq. cbn [outcome final emitted].
  remember (_is_max_limit_reached _ _ || _ || _is_max_limit_reached _ _
            || no_training_batches w) as d eqn:Ed. clear Ed.
  conjs.
  - split.
    + intros [= H]. apply orb_true_iff in H as [H | H]; [left; rewrite H | right];
        auto.
    + intros [[= H] | H]; f_equal; rewrite H; [reflexivity | apply orb_true_r].
  - eexists. reflexivity.
  - reflexivity.
  - reflexivity.
  - intros Hs Hn.
    assert (E : met_min_epochs w && met_min_steps w = false).
    { destruct (met_min_epochs w && met_min_steps w) eqn:E; [ | reflexivity].
      exfalso. apply Hn. apply andb_true_iff in E as [E1 E2].
      split; [apply met_min_epochs_iff | apply met_min_steps_iff]; assumption. }
    rewrite Hs, E. split; reflexivity.
Qed.

Lemma skip_runs_done_witness :
  let w := example_world 2 (mkTracker 1 1 1 1) true in
  outcome (skip (LimitFraction (S754_zero true)) w) = Return true
  /\ outcome (done w) = Return false
  /\ should_stop (trainer (final (skip (LimitFraction (S754_zero true)) w))) = false.
Proof.
  cbv zeta.
  pose proof (skip_runs_done (LimitFraction (S754_zero true))
                (example_world 2 (mkTracker 1 1 1 1) true)) as [H1 [_ [_ [_ H5]]]].
  conjs.
  - apply H1. right. reflexivity.
  - reflexivity.
  - apply H5; [reflexivity | ].
    unfold min_epochs_reached. simpl. lia.
Defined.

(** ** More on the step limits *)

(** X5.  The [min_steps] setter validates nothing: every value, negative
    ones included, is stored and read back, where the [max_steps] setter
    raises below -1; [max_steps] is not touched.  Once [min_steps] is [None]
    or 0, an early-stop request is honoured exactly when [min_epochs] is
    met. *)
Theorem min_steps_setter_unvalidated (value : option Z) (w : World) :
  let w' := final (set_min_steps value w) in
  outcome (set_min_steps value w) = Return tt
  /\ min_steps (self w') = value
  /\ max_steps (self w') = max_steps (self w)
  /\ (forall v : Z, v < -1 ->
        outcome (set_min_steps (Some v) w) = Return tt
        /\ outcome (set_max_steps (Some v) w)
           = Raise (MisconfigurationException (BadMaxSteps v)))
  /\ (value = None \/ value = Some 0 ->
      outcome (done_should_stop w')
      = Return (should_stop (trainer w) && met_min_epochs w)).
Proof.
  cbv zeta. conjs; try reflexivity.
  - intros v Hv. split; [reflexivity | ].
    rewrite (set_max_steps_rejects w v Hv). reflexivity.
  - intros Hv. rewrite done_should_stop_outcome.
    assert (E : met_min_steps (final (set_min_steps value w)) = true)
      by (destruct Hv as [-> | ->]; reflexivity).
    rewrite E, andb_true_r. reflexivity.
Qed.

Lemma min_steps_setter_unvalidated_witness :
  let w := example_world 0 (mkTracker 1 1 1 1) true in
  outcome (set_min_steps (Some (-7)) w) = Return tt
  /\ outcome (set_max_steps (Some (-7)) w)
     = Raise (MisconfigurationException (BadMaxSteps (-7)))
  /\ outcome (done_should_stop (final (set_min_steps (Some 0) w))) = Return true.
Proof.
  cbv zeta.
  pose proof (min_steps_setter_unvalidated (Some 0)
                (example_world 0 (mkTracker 1 1 1 1) true)) as [_ [_ [_ [H4 H5]]]].
  destruct (H4 (-7) ltac:(lia)) as [Ha Hb].
  conjs; [exact Ha | exact Hb | ].
  rewrite (H5 (or_intror eq_refl)). reflexivity.
Defined.

(** X6.  [connect] replaces the step limits together with the epoch loop:
    whatever was given to the [max_steps] and [min_steps] setters before,
    afterwards both getters read the connected loop, and [done] counts its
    steps; the epoch limits, the progress and the outputs stay.  A limit set
    after [connect] is kept. *)
Theorem connect_replaces_step_limits
        (e : EpochLoop.t) (mx mn : option Z) (w : World) :
  let w1 := final (set_min_steps mn (final (set_max_steps mx w))) in
  let w2 := final (connect e w1) in
  outcome (connect e w1) = Return tt
  /\ max_steps (self w2) = EpochLoop.max_steps e
  /\ min_steps (self w2) = EpochLoop.min_steps e
  /\ epoch_loop (self w2) = e
  /\ max_epochs (self w2) = max_epochs (self w)
  /\ min_epochs (self w2) = min_epochs (self w)
  /\ epoch_progress (self w2) = epoch_progress (self w)
  /\ _outputs (self w2) = _outputs (self w)
  /\ trainer w2 = trainer w
  /\ (forall v : Z, -1 <= v ->
        max_steps (self (final (set_max_steps (Some v) (final (connect e w))))) = v).
Proof.
  cbv zeta.
  assert (S : self (final (set_max_steps mx w)) = self w
              \/ exists v, self (final (set_max_steps mx w))
                           = with_epoch_loop (set_el_max_steps v) (self w)).
  { destruct mx as [v | ].
    - destruct (Z.lt_ge_cases v (-1)) as [L | G].
      + left. rewrite (set_max_steps_rejects w v L). reflexivity.
      + right. exists v. rewrite (set_max_steps_accepts w v G). reflexivity.
    - right. exists (-1). reflexivity. }
  assert (T : trainer (final (set_max_steps mx w)) = trainer w).
  { destruct mx as [v | ]; [ | reflexivity].
    destruct (Z.lt_ge_cases v (-1)) as [L | G].
    - rewrite (set_max_steps_rejects w v L). reflexivity.
    - rewrite (set_max_steps_accepts w v G). reflexivity. }
  unfold connect, set_min_steps, modify. cbn [outcome final self trainer with_self].
  conjs; try reflexivity;
    try (destruct S as [-> | [v ->]]; reflexivity).
  - exact T.
  - intros v Hv.
    rewrite (set_max_steps_accepts _ v Hv). reflexivity.
Qed.

Lemma connect_replaces_step_limits_witness :
  let w := example_world 0 (mkTracker 0 0 0 0) false in
  max_steps (self (final (set_max_steps (Some 5) (final (connect (EpochLoop.mk 0 None 9 0) w)))))
  = 5.
Proof.
  cbv zeta.
  refine (proj2 (proj2 (proj2 (proj2 (proj2 (proj2 (proj2 (proj2 (proj2
            (connect_replaces_step_limits (EpochLoop.mk 0 None 9 0) None None _)))))))))
            5 _).
  lia.
Defined.

(** ** More on restarting *)


(** X8.  The setter consumes the evidence it acts on.  A second call leaves
    the counters as the first left them and stores [True] only if it is given
    [True] and [ready] or [started] differ from [processed]; so after an
    interruption with [ready = started = processed], assigning [True] twice
    ends with the flag [False]. *)
Theorem restarting_setter_twice (flag1 flag2 : bool) (w : World) :
  let cur := current (epoch_progress (self w)) in
  let w1 := final (set_restarting flag1 w) in
  let w2 := final (set_restarting flag2 w1) in
  epoch_progress (self w2) = epoch_progress (self w1)
  /\ (_restarting (self w2) = true
      <-> flag2 = true /\ (ready cur <> processed cur \/ started cur <> processed cur))
  /\ (ready cur = processed cur -> started cur = processed cur ->
      processed cur <> completed cur ->
      _restarting (self w1) = flag1 /\ _restarting (self w2) = false).
Proof.
  cbv zeta.
  destruct w as [l t e]. destruct l as [mx mn el [[r s p c]] fr out df rs].
  rewrite !set_restarting_final. cbv zeta.
  cbn [self epoch_progress current with_self with_current set_completed
       set_restarting_field processed completed ready started _restarting].
  unfold finished_before_on_train_end.
  cbn [existsb ready started processed completed].
  destruct (Z.eqb_spec r c), (Z.eqb_spec s c), (Z.eqb_spec p c);
    cbn [negb orb andb];
    cbn [self epoch_progress current with_self with_current set_completed
         set_restarting_field processed completed ready started _restarting existsb];
    repeat match goal with
           | |- context [Z.eqb ?a ?b] => destruct (Z.eqb_spec a b)
           end;
    cbn [negb orb andb]; rewrite ?andb_true_r, ?andb_false_r;
    conjs; try reflexivity; try (intros; lia);
    try (split; [intros H; split; [exact H | lia] | intros [H _]; exact H]);
    try (split; [discriminate | intros [_ H]; lia]);
    try (intros; subst; split; [ | reflexivity]; destruct flag1; reflexivity).
Qed.

Lemma restarting_setter_twice_witness :
  let w := example_world 0 (mkTracker 4 4 4 3) false in
  _restarting (self (final (set_restarting true w))) = true
  /\ _restarting (self (final (set_restarting true (final (set_restarting true w))))) = false.
Proof.
  cbv zeta.
  pose proof (restarting_setter_twice true true
                (example_world 0 (mkTracker 4 4 4 3) false)) as [_ [_ H]].
  apply H; simpl; [reflexivity | reflexivity | lia].
Defined.

(** X9.  [reset] after the setter.  When the last epoch finished cleanly
    (all four counters equal), [reset] does nothing at all, whatever flag was
    assigned: [reset_on_restart] is not called.  After an interruption and an
    assignment of [True], [reset] calls [reset_on_restart] once, on the
    tracker in which [completed] has caught up with [processed]. *)
Theorem reset_after_restarting_setter
        (reset_on_restart : Tracker -> Tracker) (flag : bool) (w : World) :
  let cur := current (epoch_progress (self w)) in
  let w1 := final (set_restarting flag w) in
  (~ interrupted cur -> reset reset_on_restart w1 = mkResult (Return tt) w1 [])
  /\ (interrupted cur -> flag = false ->
      reset reset_on_restart w1 = mkResult (Return tt) w1 [])
  /\ (interrupted cur -> flag = true ->
      outcome (reset reset_on_restart w1) = Return tt
      /\ calls_of (emitted (reset reset_on_restart w1)) = [(EpochProgress, "reset_on_restart")]
      /\ seen_by EpochProgress "reset_on_restart" (emitted (reset reset_on_restart w1)) = [w1]
      /\ current (epoch_progress (self (final (reset reset_on_restart w1))))
         = reset_on_restart (set_completed (processed cur) cur)).
Proof.
  cbv zeta. rewrite set_restarting_final. cbv zeta.
  pose proof (finished_before_on_train_end_iff (current (epoch_progress (self w)))) as F.
  unfold reset, call_progress, bind, get, emit, modify.
  destruct (finished_before_on_train_end (current (epoch_progress (self w)))) eqn:E.
  - conjs.
    + intros N. exfalso. apply N, F. reflexivity.
    + intros _ ->. reflexivity.
    + intros _ ->. cbn. conjs; reflexivity.
  - conjs.
    + intros _. cbn. rewrite andb_false_r. reflexivity.
    + intros I. apply F in I. discriminate.
    + intros I. apply F in I. discriminate.
Qed.

Lemma reset_after_restarting_setter_witness :
  let w := example_world 0 (mkTracker 4 4 4 3) false in
  let w1 := final (set_restarting true w) in
  current (epoch_progress (self (final (reset (set_completed 0) w1))))
  = mkTracker 4 4 4 0.
Proof.
  cbv zeta.
  pose proof (reset_after_restarting_setter (set_completed 0) true
                (example_world 0 (mkTracker 4 4 4 3) false)) as [_ [_ H]].
  assert (I : interrupted
                (current (epoch_progress (self (example_world 0 (mkTracker 4 4 4 3) false))))).
  { unfold interrupted. simpl. lia. }
  destruct (H I eq_refl) as [_ [_ [_ H4]]]. exact H4.
Defined.

(** ** Tearing down *)

(** X10.  [teardown] releases the fetcher at most once.  The first call
    tears the fetcher down if there is one and forgets it; any further call
    finds none and only calls [epoch_loop.teardown()], which is called every
    time.  Nothing else of the loop is written. *)
Theorem teardown_releases_fetcher_once
        (epoch_loop_teardown : EpochLoop.t -> EpochLoop.t) (l : FitLoop) :
  let r1 := teardown epoch_loop_teardown l in
  let r2 := teardown epoch_loop_teardown (snd r1) in
  fst r1 = match _data_fetcher l with
           | Some f => [DataFetcherTeardown f; EpochLoopTeardown]
           | None => [EpochLoopTeardown]
           end
  /\ _data_fetcher (snd r1) = None
  /\ fst r2 = [EpochLoopTeardown]
  /\ _data_fetcher (snd r2) = None
  /\ epoch_loop (snd r1) = epoch_loop_teardown (epoch_loop l)
  /\ epoch_loop (snd r2) = epoch_loop_teardown (epoch_loop_teardown (epoch_loop l))
  /\ max_epochs (snd r1) = max_epochs l /\ min_epochs (snd r1) = min_epochs l
  /\ epoch_progress (snd r1) = epoch_progress l
  /\ _outputs (snd r1) = _outputs l
  /\ _restarting (snd r1) = _restarting l.
Proof.
  cbv zeta. unfold teardown.
  destruct (_data_fetcher l) as [f | ] eqn:E; cbn; rewrite ?E; cbn;
    conjs; solve [reflexivity | exact E].
Qed.

(** ** More on the start of a run *)




(** ** More on the end of an epoch *)

Lemma on_advance_end_final_self (env : Collaborators) (w : World) :
  outcome (on_advance_end env w)
  <> Raise (MisconfigurationException TrainingEpochEndReturned) ->
  self (final (on_advance_end env w))
  = with_current increment_completed
      (with_current increment_processed (set_outputs [] (self w))).
Proof.
  eval_advance_end env w; intros Hok;
    try (exfalso; apply Hok; reflexivity);
    cbn [self with_self]; rewrite add_batches_that_stepped_back; reflexivity.
Qed.

Lemma on_advance_end_hooks_seen (env : Collaborators) (w : World) (c : Callee) (n : string) :
  outcome (on_advance_end env w)
  <> Raise (MisconfigurationException TrainingEpochEndReturned) ->
  In (c, n) [(Callbacks, "on_train_epoch_end"); (Module_, "on_train_epoch_end");
             (Callbacks, "on_epoch_end"); (Module_, "on_epoch_end")] ->
  exists ws : World,
    seen_by c n (emitted (on_advance_end env w)) = [ws]
    /\ self ws = with_current increment_processed (set_outputs [] (self w)).
Proof.
  intros Hok Hin.
  revert Hok. eval_advance_end env w; intros Hok;
    try (exfalso; apply Hok; reflexivity);
    cbn [In] in Hin;
    destruct Hin as [[= <- <-] | [[= <- <-] | [[= <- <-] | [[= <- <-] | []]]]];
    eexists; split; reflexivity.
Qed.

(** X12.  The four end-of-epoch hooks ([on_train_epoch_end] and
    [on_epoch_end], of the callbacks and of the model) are each called once
    and see [processed] already incremented, [completed] not yet, and the
    outputs already cleared.  So a loop state saved from one of them, in an
    epoch that started with [processed = completed], counts as interrupted:
    restoring it and assigning [restarting = True] keeps the flag and lets
    [completed] catch up. *)
Theorem epoch_end_hooks_see_processed (env : Collaborators) (w : World)
        (c : Callee) (n : string) :
  let r := on_advance_end env w in
  let cur := current (epoch_progress (self w)) in
  outcome r <> Raise (MisconfigurationException TrainingEpochEndReturned) ->
  In (c, n) [(Callbacks, "on_train_epoch_end"); (Module_, "on_train_epoch_end");
             (Callbacks, "on_epoch_end"); (Module_, "on_epoch_end")] ->
  exists ws : World,
    seen_by c n (emitted r) = [ws]
    /\ processed (current (epoch_progress (self ws))) = processed cur + 1
    /\ completed (current (epoch_progress (self ws))) = completed cur
    /\ ready (current (epoch_progress (self ws))) = ready cur
    /\ started (current (epoch_progress (self ws))) = started cur
    /\ _outputs (self ws) = []
    /\ (processed cur = completed cur ->
        _restarting (self (final (set_restarting true ws))) = true
        /\ completed (current (epoch_progress (self (final (set_restarting true ws)))))
           = processed cur + 1).
Proof.
  cbv zeta. intros Hok Hin.
  destruct (on_advance_end_hooks_seen env w c n Hok Hin) as [ws [Hs Hself]].
  exists ws. split; [exact Hs | ].
  destruct ws as [ls ts es]. cbn [self] in Hself. subst ls.
  rewrite set_restarting_final. cbv zeta.
  cbn [self with_self with_current set_outputs epoch_progress current increment_processed
       processed completed ready started _outputs].
  conjs; try reflexivity.
  intros Hpc.
  match goal with
  | |- context [finished_before_on_train_end ?t] =>
      assert (F : finished_before_on_train_end t = true)
        by (apply finished_before_on_train_end_iff; right; right; cbn; lia);
      rewrite F
  end.
  split; reflexivity.
Qed.

Lemma epoch_end_hooks_see_processed_witness :
  let w := mkWorld (example_loop 0 (mkTracker 3 3 2 2) [Handle 1])
                   (example_trainer false) (fun _ => None) in
  map (fun ws => current (epoch_progress (self ws)))
      (seen_by Callbacks "on_train_epoch_end" (emitted (on_advance_end quiet w)))
  = [mkTracker 3 3 3 2].
Proof.
  cbv zeta.
  assert (Hok : outcome (on_advance_end quiet
                  (mkWorld (example_loop 0 (mkTracker 3 3 2 2) [Handle 1])
                           (example_trainer false) (fun _ => None)))
                <> Raise (MisconfigurationException TrainingEpochEndReturned))
    by (vm_compute; discriminate).
  destruct (epoch_end_hooks_see_processed quiet _ Callbacks "on_train_epoch_end" Hok
              (or_introl eq_refl)) as [ws [Hs _]].
  vm_compute. reflexivity.
Defined.



(** X14.  The epoch-level scheduler update is made exactly when
    [_num_ready_batches_reached()] holds in the world left by the logger
    connector's [on_epoch_end], then once, and before [increment_completed]:
    it sees [processed] incremented and [completed] not yet. *)
Theorem lr_schedulers_updated_when_batches_reached (env : Collaborators) (w : World) :
  let r := on_advance_end env w in
  outcome r <> Raise (MisconfigurationException TrainingEpochEndReturned) ->
  exists wl : World,
    seen_by LoggerConnector "on_epoch_end" (emitted r) = [wl]
    /\ hooks_named "update_lr_schedulers" (emitted r)
       = (if _num_ready_batches_reached env (final (call env LoggerConnector "on_epoch_end" wl))
          then [EpochLoopCallee] else [])
    /\ forall wu : World,
         In wu (seen_by EpochLoopCallee "update_lr_schedulers" (emitted r)) ->
         self wu = with_current increment_processed (set_outputs [] (self w)).
Proof.
  cbv zeta.
  eval_advance_end env w; intros Hok;
    try (exfalso; apply Hok; reflexivity);
    eexists; (split; [reflexivity | ]);
    match goal with
    | |- _ = (if ?b then _ else _) /\ _ =>
        match type of Hrb with
        | _ = ?v => let H := fresh in assert (H : b = v) by exact Hrb; rewrite H
        end
    end;
    (split; [reflexivity | ]);
    cbn; intros wu Hin;
    solve [ contradiction | destruct Hin as [<- | []]; reflexivity ].
Qed.

Lemma lr_schedulers_updated_when_batches_reached_witness :
  let w := mkWorld (example_loop 0 (mkTracker 3 3 2 2) [])
                   (example_trainer false) (fun _ => None) in
  hooks_named "update_lr_schedulers" (emitted (on_advance_end quiet w)) = [EpochLoopCallee].
Proof.
  cbv zeta.
  assert (Hok : outcome (on_advance_end quiet
                  (mkWorld (example_loop 0 (mkTracker 3 3 2 2) [])
                           (example_trainer false) (fun _ => None)))
                <> Raise (MisconfigurationException TrainingEpochEndReturned))
    by (vm_compute; discriminate).
  destruct (lr_schedulers_updated_when_batches_reached quiet _ Hok) as [wl [_ [H _]]].
  rewrite H. reflexivity.
Defined.

(** X15.  The end of an epoch closes it.  If the epoch was in flight on
    entry ([ready = started = processed + 1 = completed + 1]) and the
    configuration error is not raised, all four counters are equal
    afterwards, also when the phase ends with a graceful exit; a later
    assignment to [restarting] then stores [False] and writes no counter. *)
Theorem epoch_end_closes_the_epoch (env : Collaborators) (w : World) (flag : bool) :
  let r := on_advance_end env w in
  let cur := current (epoch_progress (self w)) in
  outcome r <> Raise (MisconfigurationException TrainingEpochEndReturned) ->
  ready cur = started cur ->
  started cur = processed cur + 1 ->
  processed cur = completed cur ->
  let cur' := current (epoch_progress (self (final r))) in
  cur' = mkTracker (ready cur) (ready cur) (ready cur) (ready cur)
  /\ ~ interrupted cur'
  /\ _restarting (self (final (set_restarting flag (final r)))) = false
  /\ epoch_progress (self (final (set_restarting flag (final r))))
     = epoch_progress (self (final r)).
Proof.
  cbv zeta. intros Hok Hrs Hsp Hpc.
  pose proof (on_advance_end_final_self env w Hok) as Hself.
  assert (Hcur : current (epoch_progress (self (final (on_advance_end env w))))
                 = mkTracker (ready (current (epoch_progress (self w))))
                             (ready (current (epoch_progress (self w))))
                             (ready (current (epoch_progress (self w))))
                             (ready (current (epoch_progress (self w))))).
  { rewrite Hself. clear Hself Hok.
    destruct w as [l t e]. destruct l as [mx mn el [[r s p c]] fr out df rs].
    cbn in *. unfold increment_completed, increment_processed. cbn. f_equal; lia. }
  assert (N : ~ interrupted (current (epoch_progress (self (final (on_advance_end env w)))))).
  { rewrite Hcur. unfold interrupted. cbn. lia. }
  assert (F : finished_before_on_train_end
                (current (epoch_progress (self (final (on_advance_end env w))))) = false).
  { destruct (finished_before_on_train_end _) eqn:E; [ | reflexivity].
    exfalso. apply N, finished_before_on_train_end_iff, E. }
  conjs; [exact Hcur | exact N | | ];
    rewrite set_restarting_final; cbv zeta; rewrite F; cbn;
    [apply andb_false_r | reflexivity].
Qed.

Lemma epoch_end_closes_the_epoch_witness :
  let w := mkWorld (example_loop 0 (mkTracker 3 3 2 2) [Handle 1])
                   (example_trainer false) (fun _ => None) in
  current (epoch_progress (self (final (on_advance_end quiet w)))) = mkTracker 3 3 3 3
  /\ _restarting (self (final (set_restarting true (final (on_advance_end quiet w))))) = false.
Proof.
  cbv zeta.
  assert (Hok : outcome (on_advance_end quiet
                  (mkWorld (example_loop 0 (mkTracker 3 3 2 2) [Handle 1])
                           (example_trainer false) (fun _ => None)))
                <> Raise (MisconfigurationException TrainingEpochEndReturned))
    by (vm_compute; discriminate).
  destruct (epoch_end_closes_the_epoch quiet _ true Hok eq_refl eq_refl eq_refl)
    as [H1 [_ [H3 _]]].
  split; [exact H1 | exact H3].
Defined.


